(** * flightsim: the foundation layer of the 2D rocket flight simulation

    A shallow embedding of [sim/utils.py], [sim/config.py], [sim/state.py]
    and [sim/result.py], and the properties their specification states.

    Number model.  A Python [float] is modelled as a real number ([R]):
    [+], [-], [*] are exact, [math.pi] is [PI], [math.sin] and [math.cos]
    are [sin] and [cos].  What Python raises is kept: a division or a
    modulo by zero and an index out of range are results of type [exc].
    Module [Binary64] at the end of the definitions replays the
    arithmetic-only functions on IEEE 754 doubles, where they compute. *)

From Stdlib Require Import Reals Lra Lia ZArith List Bool.
From Stdlib Require Import Floats.
Import ListNotations.

Local Open Scope R_scope.

(** ** Python results: a value or a raised exception *)

Inductive exception : Type :=
| ZeroDivisionError
| IndexError
| OverflowError
| ValueError.

Inductive exc (A : Type) : Type :=
| Return (a : A)
| Raise (e : exception).

Arguments Return {A} a.
Arguments Raise {A} e.

Definition bind {A B : Type} (m : exc A) (k : A -> exc B) : exc B :=
  match m with
  | Return a => k a
  | Raise e => Raise e
  end.

Notation "x <- m ;; k" := (bind m (fun x => k))
  (at level 61, m at next level, right associativity).

(** A keyword argument left out of a call takes the field's default. *)
Definition kwarg {A : Type} (dflt : A) (given : option A) : A :=
  match given with
  | Some a => a
  | None => dflt
  end.

(** A field declared with [field(default_factory=f)]: [f()] is called
    when the argument is left out. *)
Definition kwarg_factory {A : Type} (factory : exc A) (given : option A)
    : exc A :=
  match given with
  | Some a => Return a
  | None => factory
  end.

(** ** Python's arithmetic on floats, over the reals *)

(** [a / b]: true division; raises on a zero divisor. *)
Definition float_div (a b : R) : exc R :=
  if Req_dec_T b 0 then Raise ZeroDivisionError else Return (a / b).

(** [a % b]: the remainder of the floored division, [a - floor (a / b) * b];
    it has the sign of [b].  Raises on a zero divisor. *)
Definition float_mod (a b : R) : exc R :=
  if Req_dec_T b 0 then Raise ZeroDivisionError
  else Return (a - IZR (Int_part (a / b)) * b).

(** [int(x)]: truncation toward zero. *)
Definition int_of_float (x : R) : Z :=
  if Rle_dec 0 x then Int_part x else (- Int_part (- x))%Z.

(** The builtins [min(a, b)] and [max(a, b)]: the first argument is kept
    unless the second is strictly smaller (resp. larger). *)
Definition py_min (a b : R) : R := if Rlt_dec b a then b else a.
Definition py_max (a b : R) : R := if Rlt_dec a b then b else a.

(** [math.radians]. *)
Definition radians (deg : R) : R := deg * (PI / 180).

(** ** sim/utils.py *)

Module Utils.

(** A 2D vector [[v0, v1]] and a 2x2 array [[[a, b], [c, d]]] (rows). *)
Definition vec2 : Type := R * R.
Definition mat2 : Type := (R * R) * (R * R).

(** numpy's [@] on a 2x2 array and a 2-vector, and on two 2x2 arrays. *)
Definition matvec (M : mat2) (v : vec2) : vec2 :=
  let '((a, b), (c, d)) := M in
  let '(v0, v1) := v in
  (a * v0 + b * v1, c * v0 + d * v1).

Definition matmul (M N : mat2) : mat2 :=
  let '((a, b), (c, d)) := M in
  let '((e, f), (g, h)) := N in
  ((a * e + b * g, a * f + b * h), (c * e + d * g, c * f + d * h)).




(** [clamp(value, lo, hi) = max(lo, min(hi, value))] *)
Definition clamp (value lo hi : R) : R := py_max lo (py_min hi value).

(** [wrap_angle(theta) = (theta + math.pi) % (2.0 * math.pi) - math.pi] *)
Definition wrap_angle (theta : R) : exc R :=
  m <- float_mod (theta + PI) (2 * PI) ;;
  Return (m - PI).

(** [rotation_matrix(theta)]: [[-s, c], [c, s]] with
    [c, s = cos(theta), sin(theta)]. *)
Definition rotation_matrix (theta : R) : mat2 :=
  let c := cos theta in
  let s := sin theta in
  ((- s, c), (c, s)).

(** [body_to_world(vec_body, theta) = rotation_matrix(theta) @ vec_body] *)
Definition body_to_world (vec_body : vec2) (theta : R) : vec2 :=
  matvec (rotation_matrix theta) vec_body.

End Utils.

(** ** sim/config.py

    Every class is a plain [@dataclass]: the generated [__init__] stores
    each keyword argument, or the field's default when it is left out, and
    runs no [__post_init__]. *)

Module Config.

Record RocketConfig : Type := mkRocketConfig {
  dry_mass : R;
  fuel_mass : R;
  max_thrust : R;
  Isp : R;
  length : R;
  diameter : R;
  drag_coeff : R;
  moment_of_inertia : R;
  cg_offset : R;
  cp_offset : R;
  max_gimbal_angle : R
}.

Definition RocketConfig_init
    (dry_mass fuel_mass max_thrust Isp length diameter drag_coeff
     moment_of_inertia cg_offset cp_offset max_gimbal_angle : option R)
    : exc RocketConfig :=
  Return {|
    dry_mass := kwarg 50 dry_mass;
    fuel_mass := kwarg 30 fuel_mass;
    max_thrust := kwarg 1200 max_thrust;
    Isp := kwarg 220 Isp;
    length := kwarg 2 length;
    diameter := kwarg 0.15 diameter;
    drag_coeff := kwarg 0.4 drag_coeff;
    moment_of_inertia := kwarg 80 moment_of_inertia;
    cg_offset := kwarg 0.8 cg_offset;
    cp_offset := kwarg 1.2 cp_offset;
    max_gimbal_angle := kwarg (radians 5) max_gimbal_angle
  |}.


(** [total_mass = self.dry_mass + self.fuel_mass] *)
Definition total_mass (self : RocketConfig) : R :=
  dry_mass self + fuel_mass self.

Record EnvironmentConfig : Type := mkEnvironmentConfig {
  gravity : R;
  air_density : R
}.

Definition EnvironmentConfig_init (gravity air_density : option R)
    : exc EnvironmentConfig :=
  Return {|
    gravity := kwarg 9.81 gravity;
    air_density := kwarg 1.225 air_density
  |}.

Record SensorConfig : Type := mkSensorConfig {
  accel_noise_std : R;
  accel_bias : R;
  accel_sample_rate : R;
  gyro_noise_std : R;
  gyro_bias : R;
  gyro_sample_rate : R;
  altimeter_noise_std : R;
  altimeter_bias : R;
  altimeter_sample_rate : R;
  gps_pos_noise_std : R;
  gps_vel_noise_std : R;
  gps_sample_rate : R
}.

Definition SensorConfig_init
    (accel_noise_std accel_bias accel_sample_rate
     gyro_noise_std gyro_bias gyro_sample_rate
     altimeter_noise_std altimeter_bias altimeter_sample_rate
     gps_pos_noise_std gps_vel_noise_std gps_sample_rate : option R)
    : exc SensorConfig :=
  Return {|
    accel_noise_std := kwarg 0.5 accel_noise_std;
    accel_bias := kwarg 0.02 accel_bias;
    accel_sample_rate := kwarg 100 accel_sample_rate;
    gyro_noise_std := kwarg 0.01 gyro_noise_std;
    gyro_bias := kwarg 0.001 gyro_bias;
    gyro_sample_rate := kwarg 100 gyro_sample_rate;
    altimeter_noise_std := kwarg 1 altimeter_noise_std;
    altimeter_bias := kwarg 0.5 altimeter_bias;
    altimeter_sample_rate := kwarg 50 altimeter_sample_rate;
    gps_pos_noise_std := kwarg 2 gps_pos_noise_std;
    gps_vel_noise_std := kwarg 0.3 gps_vel_noise_std;
    gps_sample_rate := kwarg 10 gps_sample_rate
  |}.

Record KalmanConfig : Type := mkKalmanConfig {
  process_noise_pos : R;
  process_noise_vel : R;
  process_noise_theta : R;
  process_noise_omega : R;
  initial_pos_std : R;
  initial_vel_std : R;
  initial_theta_std : R;
  initial_omega_std : R
}.

Definition KalmanConfig_init
    (process_noise_pos process_noise_vel process_noise_theta
     process_noise_omega initial_pos_std initial_vel_std
     initial_theta_std initial_omega_std : option R)
    : exc KalmanConfig :=
  Return {|
    process_noise_pos := kwarg 0.1 process_noise_pos;
    process_noise_vel := kwarg 1 process_noise_vel;
    process_noise_theta := kwarg 0.01 process_noise_theta;
    process_noise_omega := kwarg 0.1 process_noise_omega;
    initial_pos_std := kwarg 5 initial_pos_std;
    initial_vel_std := kwarg 1 initial_vel_std;
    initial_theta_std := kwarg 0.1 initial_theta_std;
    initial_omega_std := kwarg 0.05 initial_omega_std
  |}.

Record ControllerConfig : Type := mkControllerConfig {
  Kp : R;
  Ki : R;
  Kd : R;
  target_theta : R;
  output_min : R;
  output_max : R;
  integral_limit : R
}.

Definition ControllerConfig_init
    (Kp Ki Kd target_theta output_min output_max integral_limit : option R)
    : exc ControllerConfig :=
  Return {|
    Kp := kwarg 10 Kp;
    Ki := kwarg 0.5 Ki;
    Kd := kwarg 5 Kd;
    target_theta := kwarg 0 target_theta;
    output_min := kwarg (- radians 5) output_min;
    output_max := kwarg (radians 5) output_max;
    integral_limit := kwarg 5 integral_limit
  |}.

Record SimulationConfig : Type := mkSimulationConfig {
  dt : R;
  t_end : R;
  t_burn : R;
  rocket : RocketConfig;
  environment : EnvironmentConfig;
  sensor : SensorConfig;
  kalman : KalmanConfig;
  controller : ControllerConfig
}.

Definition SimulationConfig_init
    (dt t_end t_burn : option R)
    (rocket : option RocketConfig)
    (environment : option EnvironmentConfig)
    (sensor : option SensorConfig)
    (kalman : option KalmanConfig)
    (controller : option ControllerConfig)
    : exc SimulationConfig :=
  r <- kwarg_factory
         (RocketConfig_init None None None None None None None None None
            None None) rocket ;;
  e <- kwarg_factory (EnvironmentConfig_init None None) environment ;;
  s <- kwarg_factory
         (SensorConfig_init None None None None None None None None None
            None None None) sensor ;;
  k <- kwarg_factory
         (KalmanConfig_init None None None None None None None None)
         kalman ;;
  c <- kwarg_factory
         (ControllerConfig_init None None None None None None None)
         controller ;;
  Return {|
    dt := kwarg 0.01 dt;
    t_end := kwarg 30 t_end;
    t_burn := kwarg 10 t_burn;
    rocket := r;
    environment := e;
    sensor := s;
    kalman := k;
    controller := c
  |}.

(** [n_steps = int(self.t_end / self.dt)] *)
Definition n_steps (self : SimulationConfig) : exc Z :=
  q <- float_div (t_end self) (dt self) ;;
  Return (int_of_float q).

End Config.

(** ** sim/state.py *)

Module State.

Record RocketState : Type := mkRocketState {
  x : R;
  y : R;
  vx : R;
  vy : R;
  theta : R;
  omega : R;
  mass : R
}.

Definition RocketState_init (x y vx vy theta omega mass : option R)
    : exc RocketState :=
  Return {|
    x := kwarg 0 x;
    y := kwarg 0 y;
    vx := kwarg 0 vx;
    vy := kwarg 0 vy;
    theta := kwarg 0 theta;
    omega := kwarg 0 omega;
    mass := kwarg 0 mass
  |}.

(** A one-dimensional numpy array of floats, and [arr[i]] on it. *)
Definition ndarray : Type := list R.

Definition getitem (arr : ndarray) (i : nat) : exc R :=
  match nth_error arr i with
  | Some v => Return v
  | None => Raise IndexError
  end.

(** [to_array]: [np.array([x, y, vx, vy, theta, omega, mass])] *)
Definition to_array (self : RocketState) : ndarray :=
  [x self; y self; vx self; vy self; theta self; omega self; mass self].

(** [from_array]: [cls(x=float(arr[0]), ..., mass=float(arr[6]))] *)
Definition from_array (arr : ndarray) : exc RocketState :=
  a0 <- getitem arr 0 ;;
  a1 <- getitem arr 1 ;;
  a2 <- getitem arr 2 ;;
  a3 <- getitem arr 3 ;;
  a4 <- getitem arr 4 ;;
  a5 <- getitem arr 5 ;;
  a6 <- getitem arr 6 ;;
  RocketState_init (Some a0) (Some a1) (Some a2) (Some a3) (Some a4)
    (Some a5) (Some a6).

End State.

(** ** sim/result.py *)

Module Result.

Record FlightRecord : Type := mkFlightRecord {
  time : R;
  state : State.RocketState;
  thrust : R;
  gimbal_angle : R;
  accel_reading : R;
  gyro_reading : R;
  altimeter_reading : R;
  gps_x_reading : R;
  gps_y_reading : R;
  estimated_x : R;
  estimated_y : R;
  estimated_vx : R;
  estimated_vy : R;
  estimated_theta : R;
  estimated_omega : R
}.

Definition FlightRecord_init
    (time : option R) (state : option State.RocketState)
    (thrust gimbal_angle : option R)
    (accel_reading gyro_reading altimeter_reading gps_x_reading
     gps_y_reading : option R)
    (estimated_x estimated_y estimated_vx estimated_vy estimated_theta
     estimated_omega : option R)
    : exc FlightRecord :=
  s <- kwarg_factory
         (State.RocketState_init None None None None None None None)
         state ;;
  Return {|
    time := kwarg 0 time;
    state := s;
    thrust := kwarg 0 thrust;
    gimbal_angle := kwarg 0 gimbal_angle;
    accel_reading := kwarg 0 accel_reading;
    gyro_reading := kwarg 0 gyro_reading;
    altimeter_reading := kwarg 0 altimeter_reading;
    gps_x_reading := kwarg 0 gps_x_reading;
    gps_y_reading := kwarg 0 gps_y_reading;
    estimated_x := kwarg 0 estimated_x;
    estimated_y := kwarg 0 estimated_y;
    estimated_vx := kwarg 0 estimated_vx;
    estimated_vy := kwarg 0 estimated_vy;
    estimated_theta := kwarg 0 estimated_theta;
    estimated_omega := kwarg 0 estimated_omega
  |}.

End Result.

(** The flight log of [sim/result.py]. *)

Module SimulationResult.

Record SimulationResult : Type := mkSimulationResult {
  records : list Result.FlightRecord
}.

(** [records] is declared with [field(default_factory=list)]. *)
Definition SimulationResult_init (records : option (list Result.FlightRecord))
    : exc SimulationResult :=
  rs <- kwarg_factory (Return []) records ;;
  Return {| records := rs |}.

(** [append]: [self.records.append(record)].  The list is updated in place;
    the updated log is the result. *)
Definition append (self : SimulationResult) (record : Result.FlightRecord)
    : SimulationResult :=
  {| records := records self ++ [record] |}.

(** The array accessors: [np.array([r.<field> for r in self.records])]. *)
Definition times (self : SimulationResult) : State.ndarray :=
  map (fun r => Result.time r) (records self).

Definition x (self : SimulationResult) : State.ndarray :=
  map (fun r => State.x (Result.state r)) (records self).

Definition y (self : SimulationResult) : State.ndarray :=
  map (fun r => State.y (Result.state r)) (records self).

Definition vx (self : SimulationResult) : State.ndarray :=
  map (fun r => State.vx (Result.state r)) (records self).

Definition vy (self : SimulationResult) : State.ndarray :=
  map (fun r => State.vy (Result.state r)) (records self).

Definition theta (self : SimulationResult) : State.ndarray :=
  map (fun r => State.theta (Result.state r)) (records self).

Definition omega (self : SimulationResult) : State.ndarray :=
  map (fun r => State.omega (Result.state r)) (records self).

Definition mass (self : SimulationResult) : State.ndarray :=
  map (fun r => State.mass (Result.state r)) (records self).

Definition thrust (self : SimulationResult) : State.ndarray :=
  map (fun r => Result.thrust r) (records self).

Definition gimbal (self : SimulationResult) : State.ndarray :=
  map (fun r => Result.gimbal_angle r) (records self).

End SimulationResult.

(** ** The same arithmetic on IEEE 754 doubles

    A Python [float] is a binary64 number.  The functions of the source that
    use only [+], [-], [*], [/], [%], comparisons, [int] and the constant
    [math.pi] are repeated here on Rocq's primitive floats, so that they
    run on the very inputs the interpreter would see. *)

Module Binary64.

Local Open Scope float_scope.

(** [math.pi] *)
Definition pi : float := 0x1.921fb54442d18p+1.

(** C's [fmod]: the exact remainder of [x] by [y] with the quotient
    truncated toward zero; it has the sign of [x] and is a double. *)
Definition fmod (x y : float) : float :=
  match Prim2SF x, Prim2SF y with
  | S754_nan, _ | _, S754_nan => nan
  | S754_infinity _, _ => nan
  | _, S754_zero _ => nan
  | S754_zero _, _ => x
  | S754_finite _ _ _, S754_infinity _ => x
  | S754_finite sx mx ex, S754_finite _ my ey =>
      let e := Z.min ex ey in
      let r := Z.rem (Z.shiftl (Zpos mx) (ex - e))
                     (Z.shiftl (Zpos my) (ey - e)) in
      SF2Prim (binary_normalize prec emax (if sx then (- r)%Z else r) e sx)
  end.

(** [vx % wx] as the interpreter computes it: [fmod], then the sign of
    the divisor is restored. *)
Definition float_mod (vx wx : float) : exc float :=
  if wx =? 0 then Raise ZeroDivisionError
  else
    let m := fmod vx wx in
    Return (if m =? 0 then (if get_sign wx then neg_zero else zero)
            else if xorb (wx <? 0) (m <? 0) then m + wx
            else m).

Definition float_div (a b : float) : exc float :=
  if b =? 0 then Raise ZeroDivisionError else Return (a / b).

(** [int(x)] *)
Definition int_of_float (x : float) : exc Z :=
  match Prim2SF x with
  | S754_nan => Raise ValueError
  | S754_infinity _ => Raise OverflowError
  | S754_zero _ => Return 0%Z
  | S754_finite s m e =>
      let q := Z.quot (Zpos m * 2 ^ Z.max e 0) (2 ^ Z.max (- e) 0) in
      Return (if s then (- q)%Z else q)
  end.

Definition py_min (a b : float) : float := if b <? a then b else a.
Definition py_max (a b : float) : float := if a <? b then b else a.

Definition clamp (value lo hi : float) : float :=
  py_max lo (py_min hi value).

Definition wrap_angle (theta : float) : exc float :=
  m <- float_mod (theta + pi) (2 * pi) ;;
  Return (m - pi).

Definition n_steps (t_end dt : float) : exc Z :=
  q <- float_div t_end dt ;;
  int_of_float q.

End Binary64.

(** ** Arithmetic facts *)

Lemma py_min_Rmin (a b : R) : py_min a b = Rmin a b.
Proof.
  unfold py_min, Rmin.
  destruct (Rlt_dec b a), (Rle_dec a b); lra.
Qed.

Lemma py_max_Rmax (a b : R) : py_max a b = Rmax a b.
Proof.
  unfold py_max, Rmax.
  destruct (Rlt_dec a b), (Rle_dec a b); lra.
Qed.

Lemma two_PI_pos : 0 < 2 * PI.
Proof. pose proof PI_RGT_0. lra. Qed.

(** The floor of a quotient is the number of whole divisors below. *)
Lemma Int_part_div (a b : R) (k : Z) :
  0 < b -> IZR k * b <= a < (IZR k + 1) * b -> Int_part (a / b) = k.
Proof.
  intros Hb [Hlo Hhi]. symmetry. apply Int_part_spec.
  set (q := a / b).
  assert (Ha : a = q * b) by (unfold q; field; lra).
  rewrite Ha in Hlo, Hhi. split; nra.
Qed.

Lemma Int_part_div_bounds (a b : R) :
  0 < b ->
  IZR (Int_part (a / b)) * b <= a < (IZR (Int_part (a / b)) + 1) * b.
Proof.
  intros Hb. destruct (base_Int_part (a / b)) as [Hlo Hhi].
  assert (Ha : a = a / b * b) by (field; lra).
  remember (a / b) as q eqn:Hq. clear Hq.
  rewrite Ha. split; nra.
Qed.


(** With a positive divisor [%] does not raise and lands in [[0, b)]. *)
Lemma float_mod_pos (a b : R) :
  0 < b ->
  float_mod a b = Return (a - IZR (Int_part (a / b)) * b) /\
  0 <= a - IZR (Int_part (a / b)) * b < b.
Proof.
  intros Hb. unfold float_mod.
  destruct (Req_dec_T b 0) as [E | _]; [lra |].
  split; [reflexivity |].
  pose proof (Int_part_div_bounds a b Hb). lra.
Qed.


(** ** wrap_angle *)

(** [wrap_angle] subtracts the whole turns that [theta + pi] contains. *)
Lemma wrap_angle_turns (theta : R) (k : Z) :
  IZR k * (2 * PI) <= theta + PI < (IZR k + 1) * (2 * PI) ->
  Utils.wrap_angle theta = Return (theta - IZR k * (2 * PI)).
Proof.
  intros Hk. unfold Utils.wrap_angle.
  destruct (float_mod_pos (theta + PI) (2 * PI) two_PI_pos) as [-> _].
  rewrite (Int_part_div _ _ k two_PI_pos Hk). simpl.
  f_equal. ring.
Qed.

Lemma wrap_angle_turns_exist (theta : R) :
  exists k : Z, IZR k * (2 * PI) <= theta + PI < (IZR k + 1) * (2 * PI).
Proof.
  exists (Int_part ((theta + PI) / (2 * PI))).
  apply Int_part_div_bounds, two_PI_pos.
Qed.

Lemma wrap_angle_minus_PI : Utils.wrap_angle (- PI) = Return (- PI).
Proof.
  rewrite (wrap_angle_turns (- PI) 0).
  - f_equal. ring.
  - pose proof PI_RGT_0. lra.
Qed.

Lemma wrap_angle_PI : Utils.wrap_angle PI = Return (- PI).
Proof.
  rewrite (wrap_angle_turns PI 1).
  - f_equal. ring.
  - pose proof PI_RGT_0. lra.
Qed.

(** In exact arithmetic the upper bound is strict. *)
Lemma wrap_angle_lt_PI (theta : R) :
  exists r, Utils.wrap_angle theta = Return r /\ - PI <= r < PI.
Proof.
  destruct (wrap_angle_turns_exist theta) as [k Hk].
  exists (theta - IZR k * (2 * PI)). split.
  - apply wrap_angle_turns, Hk.
  - lra.
Qed.

(** The four cases of [test_wrap_angle], exact over the reals. *)
Lemma wrap_angle_tests :
  Utils.wrap_angle 0 = Return 0 /\
  Utils.wrap_angle (2 * PI) = Return 0 /\
  Utils.wrap_angle (PI + 0.1) = Return (- PI + 0.1) /\
  Utils.wrap_angle (- PI - 0.1) = Return (PI - 0.1).
Proof.
  pose proof PI2_1 as Hpi.
  repeat split.
  - rewrite (wrap_angle_turns 0 0); [f_equal; ring | lra].
  - rewrite (wrap_angle_turns (2 * PI) 1); [f_equal; ring | lra].
  - rewrite (wrap_angle_turns (PI + 0.1) 1); [f_equal; ring | lra].
  - rewrite (wrap_angle_turns (- PI - 0.1) (-1)); [f_equal; ring | lra].
Qed.

(** C2, as the specification states it, fails at [theta = -pi]: the result
    is [-pi] itself, which is not strictly greater than [-pi]. *)
Lemma wrap_angle_reaches_minus_PI :
  Utils.wrap_angle (- PI) = Return (- PI) /\ ~ (- PI < - PI <= PI).
Proof.
  split; [apply wrap_angle_minus_PI | lra].
Qed.

(** C2 (amended): for every angle, [wrap_angle] returns a value of the
    closed interval [[-pi, pi]], the range its docstring gives; the lower
    end [-pi] is attained, at [theta = -pi] and at [theta = pi]. *)
Theorem wrap_angle_range :
  (forall theta : R,
      exists r, Utils.wrap_angle theta = Return r /\ - PI <= r <= PI) /\
  Utils.wrap_angle (- PI) = Return (- PI) /\
  Utils.wrap_angle PI = Return (- PI).
Proof.
  split; [| split; [apply wrap_angle_minus_PI | apply wrap_angle_PI]].
  intros theta. destruct (wrap_angle_lt_PI theta) as [r [Hr Hb]].
  exists r. split; [exact Hr | lra].
Qed.


(** ** clamp *)

(** C10: with [lo <= hi], [clamp] lands in [[lo, hi]] and returns an
    in-range value unchanged. *)
Theorem clamp_in_range (v lo hi : R) :
  lo <= hi ->
  (lo <= Utils.clamp v lo hi <= hi) /\
  (lo <= v <= hi -> Utils.clamp v lo hi = v).
Proof.
  intros Hlh. unfold Utils.clamp, py_max, py_min.
  destruct (Rlt_dec v hi); destruct (Rlt_dec lo _); split; lra.
Qed.

Lemma clamp_in_range_witness :
  0 <= 10 /\ (0 <= Utils.clamp 5 0 10 <= 10) /\ Utils.clamp 5 0 10 = 5.
Proof.
  assert (H : 0 <= 10) by lra.
  destruct (clamp_in_range 5 0 10 H) as [Hin Hid].
  split; [exact H |]. split; [exact Hin |]. apply Hid. lra.
Defined.

(** The three cases of [test_clamp]. *)
Lemma clamp_tests :
  Utils.clamp 5 0 10 = 5 /\ Utils.clamp (-1) 0 10 = 0 /\
  Utils.clamp 15 0 10 = 10.
Proof.
  unfold Utils.clamp, py_max, py_min.
  repeat split; repeat (destruct (Rlt_dec _ _)); lra.
Qed.

(** ** rotation_matrix and body_to_world *)

Lemma sin_cos_unit (theta : R) :
  sin theta * sin theta + cos theta * cos theta = 1.
Proof. exact (sin2_cos2 theta). Qed.

(** The image of the thrust axis [[1, 0]]: the horizontal component is
    [- sin theta]. *)
Lemma body_to_world_nose (theta : R) :
  Utils.body_to_world (1, 0) theta = (- sin theta, cos theta).
Proof.
  unfold Utils.body_to_world, Utils.rotation_matrix, Utils.matvec.
  f_equal; ring.
Qed.

(** C1 at [theta = pi / 2], a quarter turn: the code sends the thrust axis
    to world [-x], [(-1, 0)], where the claim's [(sin theta, cos theta)] is
    world [+x], [(1, 0)]. *)
Theorem body_to_world_nose_quarter_turn :
  Utils.body_to_world (1, 0) (PI / 2) = (-1, 0) /\
  (sin (PI / 2), cos (PI / 2)) = (1, 0).
Proof.
  rewrite body_to_world_nose, sin_PI2, cos_PI2. split; f_equal; ring.
Qed.

(** [test_body_to_world_vertical]: at [theta = 0] thrust along the nose
    is all vertical. *)
Lemma body_to_world_vertical : Utils.body_to_world (1, 0) 0 = (0, 1).
Proof.
  rewrite body_to_world_nose, sin_0, cos_0. f_equal. ring.
Qed.

(** C7: at [theta = 0] the matrix sends [[1, 0]] to [[0, 1]]. *)
Theorem rotation_matrix_zero_nose_up :
  Utils.matvec (Utils.rotation_matrix 0) (1, 0) = (0, 1).
Proof.
  unfold Utils.rotation_matrix, Utils.matvec.
  rewrite sin_0, cos_0. f_equal; ring.
Qed.


(** ** RocketState *)

(** C4: packing gives the seven fields in the order
    [[x, y, vx, vy, theta, omega, mass]], and unpacking the packed array
    gives back the same state, every field unchanged. *)
Theorem from_array_to_array (s : State.RocketState) :
  State.to_array s
    = [State.x s; State.y s; State.vx s; State.vy s;
       State.theta s; State.omega s; State.mass s] /\
  State.from_array (State.to_array s) = Return s.
Proof.
  destruct s. split; reflexivity.
Qed.

(** An array shorter than seven elements is refused. *)
Lemma from_array_short (arr : State.ndarray) :
  (List.length arr < 7)%nat -> State.from_array arr = Raise IndexError.
Proof.
  intros Hlen.
  do 7 (destruct arr as [| ? arr]; [reflexivity |]).
  simpl in Hlen. lia.
Qed.

(** ** FlightRecord *)

(** C8: a record built without sensor or estimate arguments has every
    sensor reading and every estimate equal to [0]. *)
Theorem FlightRecord_defaults
    (time : option R) (state : option State.RocketState)
    (thrust gimbal_angle : option R) :
  exists rec,
    Result.FlightRecord_init time state thrust gimbal_angle
      None None None None None None None None None None None = Return rec /\
    Result.accel_reading rec = 0 /\
    Result.gyro_reading rec = 0 /\
    Result.altimeter_reading rec = 0 /\
    Result.gps_x_reading rec = 0 /\
    Result.gps_y_reading rec = 0 /\
    Result.estimated_x rec = 0 /\
    Result.estimated_y rec = 0 /\
    Result.estimated_vx rec = 0 /\
    Result.estimated_vy rec = 0 /\
    Result.estimated_theta rec = 0 /\
    Result.estimated_omega rec = 0.
Proof.
  destruct state as [s |]; eexists; (split; [reflexivity |]);
    simpl; repeat split; reflexivity.
Qed.

(** ** Configuration *)




(** [test_config_defaults]: the default rocket weighs 80 kg. *)
Lemma total_mass_default :
  exists r,
    Config.RocketConfig_init None None None None None None None None None
      None None = Return r /\
    Config.total_mass r = 80.
Proof.
  eexists. split; [reflexivity |]. unfold Config.total_mass. simpl. lra.
Qed.

(** A zero [dt] is first noticed when [n_steps] divides by it. *)
Lemma n_steps_zero_dt (cfg : Config.SimulationConfig) :
  Config.dt cfg = 0 -> Config.n_steps cfg = Raise ZeroDivisionError.
Proof.
  intros E. unfold Config.n_steps, float_div. rewrite E.
  destruct (Req_dec_T 0 0); [reflexivity | contradiction].
Qed.

(** C3, as the specification states it, fails: a rocket of total mass
    [-5], a GPS sample rate of [0], [dt = -1] and [t_end = 0] are all
    accepted, and the configuration is built. *)
Lemma SimulationConfig_accepts_nonpositive :
  exists r s cfg,
    Config.RocketConfig_init (Some (-5)) (Some 0) None None None None None
      None None None None = Return r /\
    Config.SensorConfig_init None None None None None None None None None
      None None (Some 0) = Return s /\
    Config.SimulationConfig_init (Some (-1)) (Some 0) None (Some r) None
      (Some s) None None = Return cfg /\
    Config.dt cfg <= 0 /\
    Config.t_end cfg <= 0 /\
    Config.total_mass (Config.rocket cfg) <= 0 /\
    Config.gps_sample_rate (Config.sensor cfg) <= 0.
Proof.
  do 3 eexists. split; [reflexivity |]. split; [reflexivity |].
  split; [reflexivity |].
  unfold Config.total_mass. simpl. repeat split; lra.
Qed.

(** C3 (amended): construction never fails.  For every choice of
    arguments, [RocketConfig], [SensorConfig] and [SimulationConfig]
    return a configuration that holds the given masses, sample rates, [dt]
    and [t_end] unchanged (the defaults where one is left out), whatever
    their sign. *)
Theorem config_init_never_raises :
  (forall dry_mass fuel_mass max_thrust Isp length diameter drag_coeff
          moment_of_inertia cg_offset cp_offset max_gimbal_angle,
      exists r,
        Config.RocketConfig_init dry_mass fuel_mass max_thrust Isp length
          diameter drag_coeff moment_of_inertia cg_offset cp_offset
          max_gimbal_angle = Return r /\
        Config.dry_mass r = kwarg 50 dry_mass /\
        Config.fuel_mass r = kwarg 30 fuel_mass) /\
  (forall accel_noise_std accel_bias accel_sample_rate
          gyro_noise_std gyro_bias gyro_sample_rate
          altimeter_noise_std altimeter_bias altimeter_sample_rate
          gps_pos_noise_std gps_vel_noise_std gps_sample_rate,
      exists s,
        Config.SensorConfig_init accel_noise_std accel_bias accel_sample_rate
          gyro_noise_std gyro_bias gyro_sample_rate
          altimeter_noise_std altimeter_bias altimeter_sample_rate
          gps_pos_noise_std gps_vel_noise_std gps_sample_rate = Return s /\
        Config.accel_sample_rate s = kwarg 100 accel_sample_rate /\
        Config.gyro_sample_rate s = kwarg 100 gyro_sample_rate /\
        Config.altimeter_sample_rate s = kwarg 50 altimeter_sample_rate /\
        Config.gps_sample_rate s = kwarg 10 gps_sample_rate) /\
  (forall dt t_end t_burn rocket environment sensor kalman controller,
      exists cfg,
        Config.SimulationConfig_init dt t_end t_burn rocket environment
          sensor kalman controller = Return cfg /\
        Config.dt cfg = kwarg 0.01 dt /\
        Config.t_end cfg = kwarg 30 t_end /\
        (forall r, rocket = Some r -> Config.rocket cfg = r) /\
        (forall s, sensor = Some s -> Config.sensor cfg = s)).
Proof.
  split; [| split].
  - intros. eexists. split; [reflexivity |]. split; reflexivity.
  - intros. eexists. split; [reflexivity |]. repeat split; reflexivity.
  - intros dt t_end t_burn rocket environment sensor kalman controller.
    destruct rocket, environment, sensor, kalman, controller;
      eexists; (split; [reflexivity |]); simpl;
      repeat split; try reflexivity; congruence.
Qed.

(** ** Replay on IEEE 754 doubles *)

(** The default step count, as the interpreter computes it:
    [int(30.0 / 0.01)], the divisor being the double nearest to [0.01]. *)
Lemma binary64_n_steps_default :
  Binary64.n_steps 30 0x1.47ae147ae147bp-7 = Return 3000%Z.
Proof. vm_compute. reflexivity. Qed.

(** [wrap_angle(-math.pi)] is [-math.pi] on doubles too, and at the double
    just below [-math.pi] the result is [math.pi] itself: on doubles both
    ends of [[-pi, pi]] are attained. *)
Lemma binary64_wrap_angle_ends :
  Binary64.wrap_angle (- Binary64.pi)%float = Return (- Binary64.pi)%float /\
  Binary64.wrap_angle Binary64.pi = Return (- Binary64.pi)%float /\
  Binary64.wrap_angle (next_down (- Binary64.pi))%float = Return Binary64.pi.
Proof. vm_compute. repeat split; reflexivity. Qed.

Lemma binary64_clamp_tests :
  Binary64.clamp 5 0 10 = 5%float /\
  Binary64.clamp (-1) 0 10 = 0%float /\
  Binary64.clamp 15 0 10 = 10%float.
Proof. vm_compute. repeat split; reflexivity. Qed.

(** * Further properties of the code *)

(** ** clamp *)

(** X1: with [lo <= hi], a value at or below [lo] is clamped to [lo] and a
    value at or above [hi] to [hi]. *)
Theorem clamp_saturates (v lo hi : R) :
  lo <= hi ->
  (v <= lo -> Utils.clamp v lo hi = lo) /\
  (hi <= v -> Utils.clamp v lo hi = hi).
Proof.
  intros Hlh. unfold Utils.clamp, py_max, py_min.
  destruct (Rlt_dec v hi); destruct (Rlt_dec lo _); split; lra.
Qed.

Lemma clamp_saturates_witness :
  0 <= 10 /\ Utils.clamp (-1) 0 10 = 0 /\ Utils.clamp 15 0 10 = 10.
Proof.
  assert (H : 0 <= 10) by lra.
  destruct (clamp_saturates (-1) 0 10 H) as [Hlo _].
  destruct (clamp_saturates 15 0 10 H) as [_ Hhi].
  split; [exact H |]. split; [apply Hlo | apply Hhi]; lra.
Defined.

(** X2: clamping twice with the same bounds is clamping once, whatever the
    bounds. *)
Theorem clamp_idempotent (v lo hi : R) :
  Utils.clamp (Utils.clamp v lo hi) lo hi = Utils.clamp v lo hi.
Proof.
  unfold Utils.clamp, py_max, py_min.
  repeat (destruct (Rlt_dec _ _)); lra.
Qed.

(** X3: the result is never below [lo], and with inverted bounds
    ([hi < lo]) it is [lo] for every value: the lower bound wins. *)
Theorem clamp_lower_bound_wins (v lo hi : R) :
  lo <= Utils.clamp v lo hi /\
  (hi < lo -> Utils.clamp v lo hi = lo).
Proof.
  unfold Utils.clamp, py_max, py_min.
  repeat (destruct (Rlt_dec _ _)); split; lra.
Qed.

(** X4: [clamp] preserves the order of the values it is given. *)
Theorem clamp_monotone (v1 v2 lo hi : R) :
  v1 <= v2 -> Utils.clamp v1 lo hi <= Utils.clamp v2 lo hi.
Proof.
  intros Hv. unfold Utils.clamp, py_max, py_min.
  repeat (destruct (Rlt_dec _ _)); lra.
Qed.

Lemma clamp_monotone_witness :
  -1 <= 5 /\ Utils.clamp (-1) 0 10 <= Utils.clamp 5 0 10.
Proof.
  assert (H : -1 <= 5) by lra.
  split; [exact H | exact (clamp_monotone (-1) 5 0 10 H)].
Defined.



(** ** wrap_angle *)

(** Adding whole turns moves the turn count by as many. *)
Lemma wrap_angle_shift (theta : R) (k : Z) :
  Utils.wrap_angle (theta + IZR k * (2 * PI)) = Utils.wrap_angle theta.
Proof.
  destruct (wrap_angle_turns_exist theta) as [k0 Hk0].
  rewrite (wrap_angle_turns theta k0 Hk0).
  rewrite (wrap_angle_turns _ (k0 + k)).
  - f_equal. rewrite plus_IZR. ring.
  - rewrite plus_IZR. lra.
Qed.

Lemma sin_cos_whole_turns (theta : R) (k : Z) :
  sin (theta + IZR k * (2 * PI)) = sin theta /\
  cos (theta + IZR k * (2 * PI)) = cos theta.
Proof.
  destruct (Z.le_gt_cases 0 k) as [Hk | Hk].
  - rewrite <- (Z2Nat.id k Hk), <- INR_IZR_INZ.
    replace (theta + INR (Z.to_nat k) * (2 * PI))
      with (theta + 2 * INR (Z.to_nat k) * PI) by ring.
    split; [apply sin_period | apply cos_period].
  - assert (Hn : (0 <= - k)%Z) by lia.
    pose proof (sin_period (theta + IZR k * (2 * PI)) (Z.to_nat (- k))) as Hs.
    pose proof (cos_period (theta + IZR k * (2 * PI)) (Z.to_nat (- k))) as Hc.
    assert (E : theta + IZR k * (2 * PI) + 2 * INR (Z.to_nat (- k)) * PI
                = theta).
    { rewrite INR_IZR_INZ, (Z2Nat.id _ Hn), opp_IZR. ring. }
    rewrite E in Hs, Hc. split; symmetry; assumption.
Qed.

(** X6: [wrap_angle] returns its argument unchanged exactly when the
    argument lies in [[-pi, pi)]. *)
Theorem wrap_angle_fixed_points (theta : R) :
  Utils.wrap_angle theta = Return theta <-> - PI <= theta < PI.
Proof.
  split.
  - intros H. destruct (wrap_angle_lt_PI theta) as [r [Hr Hb]].
    rewrite H in Hr. injection Hr as <-. exact Hb.
  - intros Hb. rewrite (wrap_angle_turns theta 0).
    + f_equal. ring.
    + lra.
Qed.

(** X7: the result differs from the argument by a whole number of turns:
    [wrap_angle theta = theta - 2 pi k] for an integer [k]. *)
Theorem wrap_angle_whole_turns (theta : R) :
  exists (k : Z) (r : R),
    Utils.wrap_angle theta = Return r /\ r = theta - IZR k * (2 * PI).
Proof.
  destruct (wrap_angle_turns_exist theta) as [k Hk].
  exists k, (theta - IZR k * (2 * PI)).
  split; [apply wrap_angle_turns, Hk | reflexivity].
Qed.

(** X8: wrapping an angle changes neither its sine nor its cosine, so the
    frame transform of the wrapped angle is that of the angle itself. *)
Theorem rotation_matrix_wrap_angle (theta : R) :
  exists r,
    Utils.wrap_angle theta = Return r /\
    sin r = sin theta /\ cos r = cos theta /\
    Utils.rotation_matrix r = Utils.rotation_matrix theta.
Proof.
  destruct (wrap_angle_turns_exist theta) as [k Hk].
  exists (theta - IZR k * (2 * PI)).
  split; [apply wrap_angle_turns, Hk |].
  destruct (sin_cos_whole_turns theta (- k)) as [Hs Hc].
  rewrite opp_IZR in Hs, Hc.
  replace (theta + - IZR k * (2 * PI)) with (theta - IZR k * (2 * PI))
    in Hs, Hc by ring.
  unfold Utils.rotation_matrix. rewrite Hs, Hc. repeat split.
Qed.

(** X9: two angles wrap to the same value exactly when they differ by a
    whole number of turns, forward or backward. *)
Theorem wrap_angle_eq_iff (a b : R) :
  Utils.wrap_angle a = Utils.wrap_angle b <->
  exists k : Z, a - b = IZR k * (2 * PI).
Proof.
  split.
  - intros H.
    destruct (wrap_angle_turns_exist a) as [ka Hka].
    destruct (wrap_angle_turns_exist b) as [kb Hkb].
    rewrite (wrap_angle_turns a ka Hka), (wrap_angle_turns b kb Hkb) in H.
    injection H as H. exists (ka - kb)%Z. rewrite minus_IZR. lra.
  - intros [k Hk].
    replace a with (b + IZR k * (2 * PI)) by lra.
    apply wrap_angle_shift.
Qed.

(** ** rotation_matrix and body_to_world *)

(** X10: [body_to_world] preserves dot products, hence lengths and
    angles between vectors: it is an isometry of the plane. *)
Theorem body_to_world_isometry (u v : Utils.vec2) (theta : R) :
  fst (Utils.body_to_world u theta) * fst (Utils.body_to_world v theta) +
  snd (Utils.body_to_world u theta) * snd (Utils.body_to_world v theta)
  = fst u * fst v + snd u * snd v.
Proof.
  destruct u as [u0 u1], v as [v0 v1].
  unfold Utils.body_to_world, Utils.rotation_matrix, Utils.matvec. simpl.
  transitivity ((sin theta * sin theta + cos theta * cos theta)
                * (u0 * v0 + u1 * v1)); [ring |].
  rewrite sin_cos_unit. ring.
Qed.

(** X11: the product of the matrices of two angles is the proper
    (counterclockwise) rotation by their difference. *)
Theorem rotation_matrix_product (a b : R) :
  Utils.matmul (Utils.rotation_matrix a) (Utils.rotation_matrix b)
  = ((cos (a - b), - sin (a - b)), (sin (a - b), cos (a - b))).
Proof.
  unfold Utils.matmul, Utils.rotation_matrix.
  rewrite cos_minus, sin_minus.
  apply injective_projections; apply injective_projections; simpl; ring.
Qed.


(** X13: the body y-axis [[0, 1]] goes to [(cos theta, sin theta)], world
    [+x] at [theta = 0], and it stays perpendicular to the image of the
    thrust axis, both of unit length. *)
Theorem body_to_world_axes (theta : R) :
  Utils.body_to_world (0, 1) theta = (cos theta, sin theta) /\
  Utils.body_to_world (0, 1) 0 = (1, 0) /\
  fst (Utils.body_to_world (1, 0) theta) * fst (Utils.body_to_world (0, 1) theta)
  + snd (Utils.body_to_world (1, 0) theta) * snd (Utils.body_to_world (0, 1) theta)
  = 0 /\
  fst (Utils.body_to_world (1, 0) theta) ^ 2
  + snd (Utils.body_to_world (1, 0) theta) ^ 2 = 1 /\
  fst (Utils.body_to_world (0, 1) theta) ^ 2
  + snd (Utils.body_to_world (0, 1) theta) ^ 2 = 1.
Proof.
  pose proof (sin_cos_unit theta) as H.
  unfold Utils.body_to_world, Utils.rotation_matrix, Utils.matvec.
  rewrite sin_0, cos_0. simpl.
  split; [apply injective_projections; simpl; ring |].
  split; [apply injective_projections; simpl; ring |].
  repeat split; nra.
Qed.

(** ** Configuration *)








(** Overriding [dt] and the rocket's dry mass, as
    [test_config_override] does, changes those two fields only: the fuel
    mass keeps its default, so the total mass is the dry mass plus 30, and
    the other fields keep theirs. *)
Lemma config_override (dt d : R) :
  exists r cfg,
    Config.RocketConfig_init (Some d) None None None None None None None
      None None None = Return r /\
    Config.SimulationConfig_init (Some dt) None None (Some r) None None
      None None = Return cfg /\
    Config.dt cfg = dt /\
    Config.dry_mass (Config.rocket cfg) = d /\
    Config.total_mass (Config.rocket cfg) = d + 30 /\
    Config.max_thrust (Config.rocket cfg) = 1200 /\
    Config.t_end cfg = 30 /\
    Config.t_burn cfg = 10 /\
    Config.gravity (Config.environment cfg) = 9.81.
Proof.
  do 2 eexists. split; [reflexivity |]. split; [reflexivity |].
  unfold Config.total_mass. simpl. repeat split; reflexivity.
Qed.

(** The default configuration is consistent.  Its step, burn time and
    duration are ordered, its masses and sample rates are positive, every
    sensor period is a whole number of steps (1, 1, 2 and 10), the
    controller's output range is exactly the rocket's gimbal range, the
    centre of pressure lies behind the centre of gravity, and the thrust
    exceeds the weight at lift-off. *)
Lemma default_config_consistent :
  exists cfg,
    Config.SimulationConfig_init None None None None None None None None
      = Return cfg /\
    (0 < Config.dt cfg <= Config.t_burn cfg /\
     Config.t_burn cfg <= Config.t_end cfg) /\
    (0 < Config.dry_mass (Config.rocket cfg) /\
     0 < Config.fuel_mass (Config.rocket cfg)) /\
    (Config.accel_sample_rate (Config.sensor cfg) * Config.dt cfg = 1 /\
     Config.gyro_sample_rate (Config.sensor cfg) * Config.dt cfg = 1 /\
     Config.altimeter_sample_rate (Config.sensor cfg) * (2 * Config.dt cfg) = 1 /\
     Config.gps_sample_rate (Config.sensor cfg) * (10 * Config.dt cfg) = 1) /\
    (Config.output_min (Config.controller cfg)
       = - Config.max_gimbal_angle (Config.rocket cfg) /\
     Config.output_max (Config.controller cfg)
       = Config.max_gimbal_angle (Config.rocket cfg)) /\
    Config.cg_offset (Config.rocket cfg) < Config.cp_offset (Config.rocket cfg) /\
    Config.total_mass (Config.rocket cfg) * Config.gravity (Config.environment cfg)
      < Config.max_thrust (Config.rocket cfg).
Proof.
  eexists. split; [reflexivity |].
  unfold Config.total_mass. simpl.
  repeat split; try reflexivity; lra.
Qed.

(** ** RocketState *)

(** X18: [from_array] succeeds exactly on arrays of at least seven
    elements and raises [IndexError] on every shorter one; a packed state
    has exactly seven. *)
Theorem from_array_defined_iff (arr : State.ndarray) :
  ((exists s, State.from_array arr = Return s) <-> (7 <= List.length arr)%nat) /\
  (State.from_array arr = Raise IndexError <-> (List.length arr < 7)%nat) /\
  (forall s, List.length (State.to_array s) = 7%nat).
Proof.
  split; [| split; [| reflexivity]].
  - split.
    + intros [s Hs].
      destruct (Nat.le_gt_cases 7 (List.length arr)) as [H | H]; [exact H |].
      rewrite (from_array_short arr H) in Hs. discriminate.
    + intros H.
      do 7 (destruct arr as [| ? arr]; [simpl in H; lia |]).
      eexists. reflexivity.
  - split.
    + intros Hr.
      destruct (Nat.le_gt_cases 7 (List.length arr)) as [H | H]; [| exact H].
      do 7 (destruct arr as [| ? arr]; [simpl in H; lia |]).
      discriminate.
    + apply from_array_short.
Qed.

(** X19: [from_array] reads the first seven elements only: whatever
    follows them is ignored. *)
Theorem from_array_ignores_rest (arr : State.ndarray) :
  State.from_array arr = State.from_array (firstn 7 arr) /\
  (forall s rest, State.from_array (State.to_array s ++ rest) = Return s).
Proof.
  split.
  - do 7 (destruct arr as [| ? arr]; [reflexivity |]). reflexivity.
  - intros [] rest. reflexivity.
Qed.

(** X20: the other round trip: packing the state unpacked from an array
    gives back the array's first seven elements, the array itself when it
    has exactly seven. *)
Theorem to_array_from_array (arr : State.ndarray) (s : State.RocketState) :
  State.from_array arr = Return s ->
  State.to_array s = firstn 7 arr /\
  (List.length arr = 7%nat -> State.to_array s = arr).
Proof.
  intros Hs.
  destruct (Nat.le_gt_cases 7 (List.length arr)) as [H | H];
    [| rewrite (from_array_short arr H) in Hs; discriminate].
  do 7 (destruct arr as [| ? arr]; [simpl in H; lia |]).
  injection Hs as <-. split; [reflexivity |].
  intros Hlen. destruct arr; [reflexivity | simpl in Hlen; lia].
Qed.

Lemma to_array_from_array_witness :
  State.from_array [1; 2; 3; 4; 0.1; 0.2; 80]
    = Return (State.mkRocketState 1 2 3 4 0.1 0.2 80) /\
  State.to_array (State.mkRocketState 1 2 3 4 0.1 0.2 80)
    = [1; 2; 3; 4; 0.1; 0.2; 80].
Proof.
  assert (H : State.from_array [1; 2; 3; 4; 0.1; 0.2; 80]
              = Return (State.mkRocketState 1 2 3 4 0.1 0.2 80))
    by reflexivity.
  split; [exact H |].
  exact (proj2 (to_array_from_array _ _ H) eq_refl).
Defined.

(** X21: two states with the same packed array are the same state. *)
Theorem to_array_injective (s1 s2 : State.RocketState) :
  State.to_array s1 = State.to_array s2 <-> s1 = s2.
Proof.
  split; [| intros ->; reflexivity].
  destruct s1, s2. unfold State.to_array. simpl.
  intros H. injection H as -> -> -> -> -> -> ->. reflexivity.
Qed.

(** ** SimulationResult *)

Lemma fold_append_records (rs : list Result.FlightRecord)
    (res : SimulationResult.SimulationResult) :
  SimulationResult.records (fold_left SimulationResult.append rs res)
  = SimulationResult.records res ++ rs.
Proof.
  revert res. induction rs as [| r rs IH]; intros res; simpl.
  - rewrite app_nil_r. reflexivity.
  - rewrite IH. simpl. rewrite <- app_assoc. reflexivity.
Qed.

(** X22: [append] adds the record at the end of the log and touches
    nothing before it: every earlier index still holds the same record,
    and the new one sits at the old length. *)
Theorem append_keeps_earlier (res : SimulationResult.SimulationResult)
    (rec : Result.FlightRecord) :
  List.length (SimulationResult.records (SimulationResult.append res rec))
    = S (List.length (SimulationResult.records res)) /\
  (forall i, (i < List.length (SimulationResult.records res))%nat ->
     nth_error (SimulationResult.records (SimulationResult.append res rec)) i
     = nth_error (SimulationResult.records res) i) /\
  nth_error (SimulationResult.records (SimulationResult.append res rec))
    (List.length (SimulationResult.records res)) = Some rec.
Proof.
  unfold SimulationResult.append. simpl. repeat split.
  - rewrite length_app. simpl. lia.
  - intros i Hi. apply nth_error_app1, Hi.
  - rewrite nth_error_app2 by lia. rewrite Nat.sub_diag. reflexivity.
Qed.

(** X23: a log that starts empty and receives the records [rs] one after
    another holds exactly [rs], in that order, and each accessor is the
    corresponding column of [rs]. *)
Theorem log_of_appends (rs : list Result.FlightRecord) :
  exists empty,
    SimulationResult.SimulationResult_init None = Return empty /\
    let res := fold_left SimulationResult.append rs empty in
    SimulationResult.records res = rs /\
    SimulationResult.times res = map Result.time rs /\
    SimulationResult.x res = map (fun r => State.x (Result.state r)) rs /\
    SimulationResult.y res = map (fun r => State.y (Result.state r)) rs /\
    SimulationResult.vx res = map (fun r => State.vx (Result.state r)) rs /\
    SimulationResult.vy res = map (fun r => State.vy (Result.state r)) rs /\
    SimulationResult.theta res = map (fun r => State.theta (Result.state r)) rs /\
    SimulationResult.omega res = map (fun r => State.omega (Result.state r)) rs /\
    SimulationResult.mass res = map (fun r => State.mass (Result.state r)) rs /\
    SimulationResult.thrust res = map Result.thrust rs /\
    SimulationResult.gimbal res = map Result.gimbal_angle rs.
Proof.
  eexists. split; [reflexivity |]. cbv zeta.
  unfold SimulationResult.times, SimulationResult.x, SimulationResult.y,
    SimulationResult.vx, SimulationResult.vy, SimulationResult.theta,
    SimulationResult.omega, SimulationResult.mass, SimulationResult.thrust,
    SimulationResult.gimbal.
  rewrite fold_append_records. simpl. repeat split; reflexivity.
Qed.

(** X24: all ten accessors have one entry per record; reading any of them
    at an index past the end raises [IndexError], and on an empty log at
    every index. *)
Theorem accessors_length (res : SimulationResult.SimulationResult) :
  let n := List.length (SimulationResult.records res) in
  (List.length (SimulationResult.times res) = n /\
   List.length (SimulationResult.x res) = n /\
   List.length (SimulationResult.y res) = n /\
   List.length (SimulationResult.vx res) = n /\
   List.length (SimulationResult.vy res) = n /\
   List.length (SimulationResult.theta res) = n /\
   List.length (SimulationResult.omega res) = n /\
   List.length (SimulationResult.mass res) = n /\
   List.length (SimulationResult.thrust res) = n /\
   List.length (SimulationResult.gimbal res) = n) /\
  (forall i, (n <= i)%nat ->
     State.getitem (SimulationResult.times res) i = Raise IndexError /\
     State.getitem (SimulationResult.y res) i = Raise IndexError).
Proof.
  cbv zeta.
  unfold SimulationResult.times, SimulationResult.x, SimulationResult.y,
    SimulationResult.vx, SimulationResult.vy, SimulationResult.theta,
    SimulationResult.omega, SimulationResult.mass, SimulationResult.thrust,
    SimulationResult.gimbal.
  split; [repeat split; apply length_map |].
  intros i Hi. unfold State.getitem.
  split.
  - replace (nth_error _ i) with (@None R); [reflexivity |].
    symmetry. apply nth_error_None. rewrite length_map. exact Hi.
  - replace (nth_error _ i) with (@None R); [reflexivity |].
    symmetry. apply nth_error_None. rewrite length_map. exact Hi.
Qed.

(** X25: row [i] of the seven state accessors is the packed state of
    record [i]: the columns of the log and [to_array] agree. *)
Theorem accessors_row (res : SimulationResult.SimulationResult) (i : nat)
    (rec : Result.FlightRecord) :
  nth_error (SimulationResult.records res) i = Some rec ->
  exists a0 a1 a2 a3 a4 a5 a6,
    State.getitem (SimulationResult.x res) i = Return a0 /\
    State.getitem (SimulationResult.y res) i = Return a1 /\
    State.getitem (SimulationResult.vx res) i = Return a2 /\
    State.getitem (SimulationResult.vy res) i = Return a3 /\
    State.getitem (SimulationResult.theta res) i = Return a4 /\
    State.getitem (SimulationResult.omega res) i = Return a5 /\
    State.getitem (SimulationResult.mass res) i = Return a6 /\
    [a0; a1; a2; a3; a4; a5; a6] = State.to_array (Result.state rec) /\
    State.getitem (SimulationResult.times res) i = Return (Result.time rec).
Proof.
  intros Hi.
  unfold State.getitem, SimulationResult.times, SimulationResult.x,
    SimulationResult.y, SimulationResult.vx, SimulationResult.vy,
    SimulationResult.theta, SimulationResult.omega, SimulationResult.mass.
  rewrite !nth_error_map, Hi. simpl.
  do 7 eexists. repeat split.
Qed.

Lemma accessors_row_witness :
  exists res,
    res = SimulationResult.append (SimulationResult.mkSimulationResult [])
            (Result.mkFlightRecord 0.05 (State.mkRocketState 0 5 0 0 0 0 80)
               0 0 0 0 0 0 0 0 0 0 0 0 0) /\
    State.getitem (SimulationResult.y res) 0 = Return 5 /\
    State.getitem (SimulationResult.mass res) 0 = Return 80.
Proof.
  eexists. split; [reflexivity |].
  match goal with
  | |- State.getitem (SimulationResult.y ?r) 0 = _ /\ _ =>
      destruct (accessors_row r 0%nat _ eq_refl)
        as (a0 & a1 & a2 & a3 & a4 & a5 & a6 &
            _ & H1 & _ & _ & _ & _ & H6 & Hrow & _)
  end.
  injection Hrow as _ E1 _ _ _ _ E6.
  rewrite H1, H6, E1, E6. split; reflexivity.
Defined.

(** ** clamp and wrap_angle on IEEE 754 doubles *)

Lemma binary64_nan_not_lt (a : float) : (nan <? a)%float = false.
Proof.
  rewrite ltb_spec.
  change (Prim2SF nan) with S754_nan.
  destruct (Prim2SF a); reflexivity.
Qed.

(** X26: on doubles, clamping a NaN value does not return the NaN: the
    result is [hi] when [lo < hi], and [lo] otherwise. *)
Theorem binary64_clamp_nan (lo hi : float) :
  Binary64.clamp nan lo hi = if (lo <? hi)%float then hi else lo.
Proof.
  unfold Binary64.clamp, Binary64.py_max, Binary64.py_min.
  rewrite binary64_nan_not_lt. reflexivity.
Qed.

(** X27: on doubles, [wrap_angle] never raises, whatever the argument:
    the divisor [2 pi] is not zero, and an infinite or NaN angle gives NaN
    instead of an exception. *)
Theorem binary64_wrap_angle_never_raises :
  (forall theta : float, exists r, Binary64.wrap_angle theta = Return r) /\
  Binary64.wrap_angle infinity = Return nan /\
  Binary64.wrap_angle neg_infinity = Return nan /\
  Binary64.wrap_angle nan = Return nan.
Proof.
  split.
  - intros theta. unfold Binary64.wrap_angle, Binary64.float_mod.
    change (2 * Binary64.pi =? 0)%float with false.
    simpl. eexists. reflexivity.
  - vm_compute. repeat split; reflexivity.
Qed.
